(** * A shallow embedding of [pulsar/testing/TesterPy.py]

    The module adds two duck-typed assertion methods to the native
    [TesterBase] recorder and two free helpers that turn a raised exception
    into a 0 result.  We embed it over a small Python value universe, a
    Python exception record and a state-and-exception monad whose state is
    the trace of observable effects: invocations of the user callable, calls
    into the native recorder ([test_bool], [test_float]) and writes to the
    global debug sink. *)

From Stdlib Require Import String Ascii List ZArith QArith Bool Lia.
Import ListNotations.
Open Scope string_scope.

(** ** Python exceptions

    [exc_is_Exception] says whether the exception's class derives from
    [Exception]; classes such as [KeyboardInterrupt] or [SystemExit] derive
    only from [BaseException].  [exc_str] is [str(e)]. *)
Record exc := mk_exc {
  exc_type : string;
  exc_is_Exception : bool;
  exc_str : string
}.

(** ** Python values

    Floats are finite and identified with their rational value, which is how
    Python compares them with ints.  [PFloat None q] is an instance of
    [float] itself, [PFloat (Some c) q] an instance of a subclass [c] of
    [float].  [PObj] is an instance of a user class whose [__eq__] either
    returns a boolean or raises. *)
Inductive eq_behaviour :=
| EqReturns (b : bool)
| EqRaises (e : exc).

Inductive pyval :=
| PNone
| PBool (b : bool)
| PInt (z : Z)
| PFloat (subclass : option string) (q : Q)
| PStr (s : string)
| PObj (cls : string) (eq : eq_behaviour).

(** Outcome of a Python evaluation: a value or a raised exception. *)
Inductive res (A : Type) :=
| Ok (a : A)
| Exn (e : exc).
Arguments Ok {A} a.
Arguments Exn {A} e.

(** ** Observable effects *)
Inductive event :=
| EvCall                                     (* func( *args) is evaluated *)
| EvTestBool (desc : string) (b : bool)      (* self.test_bool(desc, b) *)
| EvTestFloat (desc : string) (v1 v2 tol : pyval) (* self.test_float(...) *)
| EvDebug (msg : string).                    (* psr.print_global_debug(msg) *)

Definition trace := list event.

(** ** The monad: state (the trace) and Python exceptions *)
Definition M (A : Type) := trace -> res A * trace.

Definition ret {A} (a : A) : M A := fun t => (Ok a, t).
Definition raise {A} (e : exc) : M A := fun t => (Exn e, t).
Definition bind {A B} (m : M A) (k : A -> M B) : M B :=
  fun t => match m t with
           | (Ok a, t') => k a t'
           | (Exn e, t') => (Exn e, t')
           end.
Definition emit (ev : event) : M unit := fun t => (Ok tt, app t [ev]).

Notation "x <- m ;; k" := (bind m (fun x => k))
  (at level 61, m at next level, right associativity).

(** [try: m  except Exception as e: h e]; other exceptions propagate. *)
Definition try_except_Exception {A} (m : M A) (h : exc -> M A) : M A :=
  fun t => match m t with
           | (Exn e, t') => if exc_is_Exception e then h e t' else (Exn e, t')
           | r => r
           end.

(** [try: m  except Exception as e: h e  except: h_bare]. An exception
    raised inside a handler is not caught by a later clause of the same
    [try]. *)
Definition try_except_Exception_bare {A} (m : M A) (h : exc -> M A)
    (h_bare : M A) : M A :=
  fun t => match m t with
           | (Exn e, t') => if exc_is_Exception e then h e t' else h_bare t'
           | r => r
           end.

(** ** Calling the user callable *)
Record pyfunc := mk_pyfunc {
  fn_body : list pyval -> res pyval
}.

Definition invoke (func : pyfunc) (args : list pyval) : M pyval :=
  fun t => (fn_body func args, app t [EvCall]).

(** ** Python [==]

    A user object's [__eq__] decides (the left operand first, the reflected
    right operand otherwise); bools, ints and floats compare numerically;
    strings by content; [None == None]; anything else is unequal. *)
Definition to_num (v : pyval) : option Q :=
  match v with
  | PBool b => Some (if b then 1 else 0)%Q
  | PInt z => Some (inject_Z z)
  | PFloat _ q => Some q
  | _ => None
  end.

Definition run_eq (b : eq_behaviour) : M bool :=
  match b with
  | EqReturns r => ret r
  | EqRaises e => raise e
  end.

Definition py_eq (v1 v2 : pyval) : M bool :=
  match v1, v2 with
  | PObj _ b, _ => run_eq b
  | _, PObj _ b => run_eq b
  | PNone, PNone => ret true
  | PStr s1, PStr s2 => ret (String.eqb s1 s2)
  | _, _ =>
      match to_num v1, to_num v2 with
      | Some q1, Some q2 => ret (Qeq_bool q1 q2)
      | _, _ => ret false
      end
  end.

(** [type(v) == float]: exact type identity, subclasses excluded. *)
Definition type_is_float (v : pyval) : bool :=
  match v with
  | PFloat None _ => true
  | _ => false
  end.

(** ** The module's global namespace

    The module imports only [TesterBase]; it defines [TesterPy],
    [py_test_function] and [py_test_bool_function].  Loading any other
    global (that is not a builtin) raises [NameError]. *)
Definition TesterPy_globals : list string :=
  ["TesterBase"; "TesterPy"; "py_test_function"; "py_test_bool_function"].

Definition NameError (name : string) : exc :=
  mk_exc "NameError" true ("name '" ++ name ++ "' is not defined").

Definition load_global (name : string) : M unit :=
  if existsb (String.eqb name) TesterPy_globals then ret tt
  else raise (NameError name).

Definition newline : string := String (ascii_of_nat 10) EmptyString.

(** [psr.print_global_debug(msg)]: the global [psr] is loaded first. *)
Definition psr_print_global_debug (msg : string) : M unit :=
  _ <- load_global "psr" ;;
  emit (EvDebug msg).

(** ** [class TesterPy(TesterBase)]

    [self.test_bool] and [self.test_float] are the native recorder's
    primitives; each call is one event of the trace. *)
Module TesterPy.

Definition test_bool (desc : string) (b : bool) : M unit :=
  emit (EvTestBool desc b).

Definition test_float (desc : string) (v1 v2 tol : pyval) : M unit :=
  emit (EvTestFloat desc v1 v2 tol).

(** [def test(self, desc, should_pass, expected, func, *args)] *)
Definition test (desc : string) (should_pass : bool) (expected : pyval)
    (func : pyfunc) (args : list pyval) : M unit :=
  success <- try_except_Exception
               (r <- invoke func args ;;
                b <- py_eq expected r ;;
                ret (andb b should_pass))
               (fun _ => ret (negb should_pass)) ;;
  test_bool desc success.

(** The default of [tol]: the literal [0.0001]. *)
Definition default_tol : pyval := PFloat None (1 # 10000).

(** [def test_value(self, desc, v1, v2, tol=0.0001)]; [None] for [tol]
    stands for the omitted argument. *)
Definition test_value (desc : string) (v1 v2 : pyval) (tol : option pyval)
    : M unit :=
  let tol := match tol with Some x => x | None => default_tol end in
  if andb (type_is_float v1) (type_is_float v2) then
    test_float desc v1 v2 tol
  else
    b <- py_eq v1 v2 ;;
    test_bool desc b.

End TesterPy.

(** ** Free helpers *)

(** [def py_test_function(func, *args)]: [Some v] is a [return v] inside
    a handler, [None] falls through to the final [return 1]. *)
Definition py_test_function (func : pyfunc) (args : list pyval) : M pyval :=
  r <- try_except_Exception_bare
         (_ <- invoke func args ;; ret None)
         (fun e => _ <- psr_print_global_debug (exc_str e ++ newline) ;;
                   ret (Some (PInt 0)))
         (ret (Some (PInt 0))) ;;
  match r with
  | Some v => ret v
  | None => ret (PInt 1)
  end.

(** [def py_test_bool_function(func, *args)] *)
Definition py_test_bool_function (func : pyfunc) (args : list pyval)
    : M pyval :=
  try_except_Exception_bare
    (invoke func args)
    (fun e => _ <- psr_print_global_debug (exc_str e ++ newline) ;;
              ret (PInt 0))
    (ret (PInt 0)).

(** ** Trace counters *)
Definition is_call (ev : event) : bool :=
  match ev with EvCall => true | _ => false end.
Definition is_test_bool (ev : event) : bool :=
  match ev with EvTestBool _ _ => true | _ => false end.
Definition count_calls (s : trace) : nat := length (filter is_call s).
Definition count_test_bool (s : trace) : nat := length (filter is_test_bool s).

(** The value of [v1 == v2]; evaluating it leaves the trace unchanged
    ([py_eq_state] below). *)
Definition eval_eq (v1 v2 : pyval) : res bool := fst (py_eq v1 v2 []).

(** ** Sample inputs *)
Definition ZeroDivisionError : exc :=
  mk_exc "ZeroDivisionError" true "division by zero".
Definition KeyboardInterrupt : exc := mk_exc "KeyboardInterrupt" false "".
Definition ValueError (msg : string) : exc := mk_exc "ValueError" true msg.

Definition const_fn (v : pyval) : pyfunc := mk_pyfunc (fun _ => Ok v).
Definition raising_fn (e : exc) : pyfunc := mk_pyfunc (fun _ => Exn e).

(** [lambda: 1/0] *)
Definition div_by_zero : pyfunc := raising_fn ZeroDivisionError.

Example test_pass_ex :
  TesterPy.test "d" true (PInt 42) (const_fn (PInt 42)) [] []
  = (Ok tt, [EvCall; EvTestBool "d" true]).
Proof. reflexivity. Qed.

Example py_test_function_ex :
  py_test_function div_by_zero [] []
  = (Exn (NameError "psr"), [EvCall]).
Proof. reflexivity. Qed.

Definition eq_raising_obj : pyval :=
  PObj "RaisingEq" (EqRaises (ValueError "cannot compare")).

(** * Properties *)

Open Scope list_scope.

Lemma py_eq_state (v1 v2 : pyval) (t : trace) :
  py_eq v1 v2 t = (eval_eq v1 v2, t).
Proof.
  unfold eval_eq.
  destruct v1, v2;
    repeat match goal with b : eq_behaviour |- _ => destruct b end;
    reflexivity.
Qed.

(** [test] in closed form: one call of [func], then either one
    [test_bool] or a propagated exception. *)
Lemma test_eq (desc : string) (sp : bool) (expected : pyval) (func : pyfunc)
    (args : list pyval) (t : trace) :
  TesterPy.test desc sp expected func args t =
  match fn_body func args with
  | Ok v =>
      match eval_eq expected v with
      | Ok b => (Ok tt, t ++ [EvCall; EvTestBool desc (andb b sp)])
      | Exn e =>
          if exc_is_Exception e
          then (Ok tt, t ++ [EvCall; EvTestBool desc (negb sp)])
          else (Exn e, t ++ [EvCall])
      end
  | Exn e =>
      if exc_is_Exception e
      then (Ok tt, t ++ [EvCall; EvTestBool desc (negb sp)])
      else (Exn e, t ++ [EvCall])
  end.
Proof.
  unfold TesterPy.test, TesterPy.test_bool, try_except_Exception, bind,
    invoke, emit, ret.
  destruct (fn_body func args) as [v|e].
  - rewrite py_eq_state.
    destruct (eval_eq expected v) as [b|e].
    + rewrite <- app_assoc; reflexivity.
    + destruct (exc_is_Exception e); [rewrite <- app_assoc|]; reflexivity.
  - destruct (exc_is_Exception e); [rewrite <- app_assoc|]; reflexivity.
Qed.

(** [psr] is not a global of the module: the handler's first step raises
    [NameError] and writes nothing. *)
Lemma psr_print_global_debug_eq (msg : string) (t : trace) :
  psr_print_global_debug msg t = (Exn (NameError "psr"), t).
Proof. reflexivity. Qed.

Lemma py_test_function_eq (func : pyfunc) (args : list pyval) (t : trace) :
  py_test_function func args t =
  match fn_body func args with
  | Ok _ => (Ok (PInt 1), t ++ [EvCall])
  | Exn e =>
      if exc_is_Exception e
      then (Exn (NameError "psr"), t ++ [EvCall])
      else (Ok (PInt 0), t ++ [EvCall])
  end.
Proof.
  unfold py_test_function, try_except_Exception_bare, bind, invoke, ret.
  destruct (fn_body func args) as [v|e]; [reflexivity|].
  destruct (exc_is_Exception e); reflexivity.
Qed.

Lemma py_test_bool_function_eq (func : pyfunc) (args : list pyval)
    (t : trace) :
  py_test_bool_function func args t =
  match fn_body func args with
  | Ok v => (Ok v, t ++ [EvCall])
  | Exn e =>
      if exc_is_Exception e
      then (Exn (NameError "psr"), t ++ [EvCall])
      else (Ok (PInt 0), t ++ [EvCall])
  end.
Proof.
  unfold py_test_bool_function, try_except_Exception_bare, bind, invoke, ret.
  destruct (fn_body func args) as [v|e]; [reflexivity|].
  destruct (exc_is_Exception e); reflexivity.
Qed.

Lemma test_value_eq (desc : string) (v1 v2 : pyval) (tol : option pyval)
    (t : trace) :
  TesterPy.test_value desc v1 v2 tol t =
  if andb (type_is_float v1) (type_is_float v2)
  then (Ok tt, t ++ [EvTestFloat desc v1 v2
                       (match tol with
                        | Some x => x
                        | None => PFloat None (1 # 10000)
                        end)])
  else match eval_eq v1 v2 with
       | Ok b => (Ok tt, t ++ [EvTestBool desc b])
       | Exn e => (Exn e, t)
       end.
Proof.
  unfold TesterPy.test_value, TesterPy.test_float, TesterPy.test_bool,
    TesterPy.default_tol, bind, emit.
  destruct (andb (type_is_float v1) (type_is_float v2)); [reflexivity|].
  rewrite py_eq_state. destruct (eval_eq v1 v2); reflexivity.
Qed.

(** * Claims *)

(** C1 (counterexample): [func] returns normally an object whose [__eq__]
    raises, [should_pass] is [False]: neither condition of the claim holds,
    yet [test] records [True]. *)
Lemma C1_counterexample :
  TesterPy.test "d" false (PInt 1) (const_fn eq_raising_obj) [] []
    = (Ok tt, [EvCall; EvTestBool "d" true]) /\
  ~ ((exists v, fn_body (const_fn eq_raising_obj) [] = Ok v /\
                eval_eq (PInt 1) v = Ok true /\ false = true) \/
     (exists e, fn_body (const_fn eq_raising_obj) [] = Exn e /\
                false = false)).
Proof.
  split; [reflexivity|].
  intros [[v [_ [_ H]]] | [e [H _]]]; discriminate.
Qed.

(** C1 (amended): when [func( *args)] returns [v] and [expected == v]
    evaluates to [b], [test] records [b and should_pass]; when the call or
    the comparison raises an exception derived from [Exception], it records
    [not should_pass]; an exception not derived from [Exception] propagates
    and nothing is recorded.  In every case [func] is called once. *)
Theorem test_records (desc : string) (sp : bool) (expected : pyval)
    (func : pyfunc) (args : list pyval) (t : trace) :
  (forall v b, fn_body func args = Ok v -> eval_eq expected v = Ok b ->
     TesterPy.test desc sp expected func args t
       = (Ok tt, t ++ [EvCall; EvTestBool desc (andb b sp)])) /\
  (forall e, (fn_body func args = Exn e \/
              exists v, fn_body func args = Ok v /\
                        eval_eq expected v = Exn e) ->
     exc_is_Exception e = true ->
     TesterPy.test desc sp expected func args t
       = (Ok tt, t ++ [EvCall; EvTestBool desc (negb sp)])) /\
  (forall e, (fn_body func args = Exn e \/
              exists v, fn_body func args = Ok v /\
                        eval_eq expected v = Exn e) ->
     exc_is_Exception e = false ->
     TesterPy.test desc sp expected func args t = (Exn e, t ++ [EvCall])).
Proof.
  rewrite test_eq.
  split; [|split].
  - intros v b Hf He. rewrite Hf, He. reflexivity.
  - intros e [Hf | [v [Hf He]]] Hx; rewrite Hf; [|rewrite He]; rewrite Hx;
      reflexivity.
  - intros e [Hf | [v [Hf He]]] Hx; rewrite Hf; [|rewrite He]; rewrite Hx;
      reflexivity.
Qed.

(** C2 (counterexample): [func] raises [KeyboardInterrupt], which does not
    derive from [Exception]: [test] propagates it and calls [test_bool]
    zero times. *)
Lemma C2_counterexample :
  fn_body (raising_fn KeyboardInterrupt) [] = Exn KeyboardInterrupt /\
  TesterPy.test "d" false (PInt 1) (raising_fn KeyboardInterrupt) [] []
    = (Exn KeyboardInterrupt, [EvCall]) /\
  count_test_bool [EvCall] = 0%nat.
Proof. split; [|split]; reflexivity. Qed.

(** C2 (amended): when [func] and the comparison [expected == v] return
    normally, or when either raises an exception derived from [Exception],
    [test] returns normally after exactly one [test_bool] call (an
    [Exception] never propagates); when either raises an exception not
    derived from [Exception], [test] propagates that exception after no
    [test_bool] call. *)
Theorem test_one_record (desc : string) (sp : bool) (expected : pyval)
    (func : pyfunc) (args : list pyval) (t : trace) :
  (forall v b, fn_body func args = Ok v -> eval_eq expected v = Ok b ->
     fst (TesterPy.test desc sp expected func args t) = Ok tt /\
     exists s, snd (TesterPy.test desc sp expected func args t) = t ++ s /\
               count_test_bool s = 1%nat) /\
  (forall e, (fn_body func args = Exn e \/
              exists v, fn_body func args = Ok v /\
                        eval_eq expected v = Exn e) ->
     exc_is_Exception e = true ->
     fst (TesterPy.test desc sp expected func args t) = Ok tt /\
     exists s, snd (TesterPy.test desc sp expected func args t) = t ++ s /\
               count_test_bool s = 1%nat) /\
  (forall e, (fn_body func args = Exn e \/
              exists v, fn_body func args = Ok v /\
                        eval_eq expected v = Exn e) ->
     exc_is_Exception e = false ->
     fst (TesterPy.test desc sp expected func args t) = Exn e /\
     exists s, snd (TesterPy.test desc sp expected func args t) = t ++ s /\
               count_test_bool s = 0%nat).
Proof.
  rewrite test_eq. split; [|split].
  - intros v b Hf He. rewrite Hf, He.
    split; [reflexivity|]. eexists; split; reflexivity.
  - intros e [Hf | [v [Hf He]]] Hx; rewrite Hf; [|rewrite He]; rewrite Hx;
      (split; [reflexivity|]); eexists; split; reflexivity.
  - intros e [Hf | [v [Hf He]]] Hx; rewrite Hf; [|rewrite He]; rewrite Hx;
      (split; [reflexivity|]); eexists; split; reflexivity.
Qed.

(** C3: [test_value] calls [test_float] exactly when both values are
    [float]s, and otherwise records [test_bool(desc, v1 == v2)]; an omitted
    tolerance is [0.0001]. *)
Theorem test_value_dispatch (desc : string) (v1 v2 : pyval)
    (tol : option pyval) (t : trace) :
  TesterPy.test_value desc v1 v2 tol t =
  (if andb (type_is_float v1) (type_is_float v2)
   then (Ok tt, t ++ [EvTestFloat desc v1 v2
                        (match tol with
                         | Some x => x
                         | None => PFloat None (1 # 10000)
                         end)])
   else match eval_eq v1 v2 with
        | Ok b => (Ok tt, t ++ [EvTestBool desc b])
        | Exn e => (Exn e, t)
        end) /\
  TesterPy.test_value desc v1 v2 None t
    = TesterPy.test_value desc v1 v2 (Some (PFloat None (1 # 10000))) t.
Proof.
  split; [apply test_value_eq|].
  rewrite !test_value_eq. reflexivity.
Qed.

(** C4: when [func( *args)] returns normally, whatever its value,
    [py_test_function] returns 1. *)
Theorem py_test_function_returns_1 (func : pyfunc) (args : list pyval)
    (v : pyval) (t : trace) (Hok : fn_body func args = Ok v) :
  py_test_function func args t = (Ok (PInt 1), t ++ [EvCall]).
Proof. rewrite py_test_function_eq, Hok. reflexivity. Qed.

Lemma py_test_function_returns_1_witness :
  fn_body (const_fn (PInt 42)) [] = Ok (PInt 42) /\
  py_test_function (const_fn (PInt 42)) [] [] = (Ok (PInt 1), [EvCall]).
Proof.
  split; [reflexivity|].
  exact (py_test_function_returns_1 (const_fn (PInt 42)) [] (PInt 42) []
           eq_refl).
Defined.

(** Where [func( *args)] raises an exception derived from [Exception]
    ([lambda: 1/0]), the handler's reference to the unbound global [psr]
    raises [NameError]: nothing is written and [NameError] propagates. *)
Lemma py_test_function_div_by_zero :
  py_test_function div_by_zero [] [] = (Exn (NameError "psr"), [EvCall]) /\
  py_test_bool_function div_by_zero [] []
    = (Exn (NameError "psr"), [EvCall]).
Proof. split; reflexivity. Qed.

(** C5 (counterexample): [func] raises [KeyboardInterrupt]:
    [py_test_function] returns 0 but writes nothing to the debug sink. *)
Lemma C5_counterexample :
  fn_body (raising_fn KeyboardInterrupt) [] = Exn KeyboardInterrupt /\
  py_test_function (raising_fn KeyboardInterrupt) [] []
    = (Ok (PInt 0), [EvCall]) /\
  ~ In (EvDebug (exc_str KeyboardInterrupt ++ newline)%string) [EvCall].
Proof.
  split; [reflexivity|]. split; [reflexivity|].
  intros [H|[]]; discriminate.
Qed.

(** C5 (amended): when [func( *args)] raises an exception not derived from
    [Exception], [py_test_function] returns 0, writes nothing to the debug
    sink and does not propagate the exception. *)
Theorem py_test_function_base_exception (func : pyfunc) (args : list pyval)
    (e : exc) (t : trace) (Hraise : fn_body func args = Exn e)
    (Hbase : exc_is_Exception e = false) :
  py_test_function func args t = (Ok (PInt 0), t ++ [EvCall]).
Proof. rewrite py_test_function_eq, Hraise, Hbase. reflexivity. Qed.

Lemma py_test_function_base_exception_witness :
  fn_body (raising_fn KeyboardInterrupt) [] = Exn KeyboardInterrupt /\
  exc_is_Exception KeyboardInterrupt = false /\
  py_test_function (raising_fn KeyboardInterrupt) [] []
    = (Ok (PInt 0), [EvCall]).
Proof.
  split; [reflexivity|]. split; [reflexivity|].
  exact (py_test_function_base_exception (raising_fn KeyboardInterrupt) []
           KeyboardInterrupt [] eq_refl eq_refl).
Defined.

(** C6: when [func( *args)] returns [v] normally, [py_test_bool_function]
    returns [v] itself. *)
Theorem py_test_bool_function_returns_value (func : pyfunc)
    (args : list pyval) (v : pyval) (t : trace)
    (Hok : fn_body func args = Ok v) :
  py_test_bool_function func args t = (Ok v, t ++ [EvCall]).
Proof. rewrite py_test_bool_function_eq, Hok. reflexivity. Qed.

Lemma py_test_bool_function_returns_value_witness :
  fn_body (const_fn (PStr "yes")) [] = Ok (PStr "yes") /\
  py_test_bool_function (const_fn (PStr "yes")) [] []
    = (Ok (PStr "yes"), [EvCall]).
Proof.
  split; [reflexivity|].
  exact (py_test_bool_function_returns_value (const_fn (PStr "yes")) []
           (PStr "yes") [] eq_refl).
Defined.

(** C7 (counterexample): [func] raises [KeyboardInterrupt]:
    [py_test_bool_function] returns 0 but writes nothing to the debug
    sink. *)
Lemma C7_counterexample :
  fn_body (raising_fn KeyboardInterrupt) [] = Exn KeyboardInterrupt /\
  py_test_bool_function (raising_fn KeyboardInterrupt) [] []
    = (Ok (PInt 0), [EvCall]) /\
  ~ exists msg, In (EvDebug msg) [EvCall].
Proof.
  split; [reflexivity|]. split; [reflexivity|].
  intros [msg [H|[]]]; discriminate.
Qed.

(** C7 (amended): when [func( *args)] raises an exception not derived from
    [Exception], [py_test_bool_function] returns 0, writes nothing to the
    debug sink and does not propagate the exception. *)
Theorem py_test_bool_function_base_exception (func : pyfunc)
    (args : list pyval) (e : exc) (t : trace)
    (Hraise : fn_body func args = Exn e)
    (Hbase : exc_is_Exception e = false) :
  py_test_bool_function func args t = (Ok (PInt 0), t ++ [EvCall]).
Proof. rewrite py_test_bool_function_eq, Hraise, Hbase. reflexivity. Qed.

Lemma py_test_bool_function_base_exception_witness :
  fn_body (raising_fn KeyboardInterrupt) [] = Exn KeyboardInterrupt /\
  exc_is_Exception KeyboardInterrupt = false /\
  py_test_bool_function (raising_fn KeyboardInterrupt) [] []
    = (Ok (PInt 0), [EvCall]).
Proof.
  split; [reflexivity|]. split; [reflexivity|].
  exact (py_test_bool_function_base_exception (raising_fn KeyboardInterrupt)
           [] KeyboardInterrupt [] eq_refl eq_refl).
Defined.

(** C8: one [test] call evaluates [func] exactly once (hence at most
    once): there is no retry, whether the call raises or not and whatever
    [should_pass] is. *)
Theorem test_calls_func_once (desc : string) (sp : bool) (expected : pyval)
    (func : pyfunc) (args : list pyval) (t : trace) :
  exists s, snd (TesterPy.test desc sp expected func args t) = t ++ s /\
    count_calls s = 1%nat.
Proof.
  rewrite test_eq.
  destruct (fn_body func args) as [v|e];
    [destruct (eval_eq expected v) as [b|e]|];
    try destruct (exc_is_Exception e);
    (eexists; split; [reflexivity|reflexivity]).
Qed.

(** C9: an exception raised by [expected == v] is caught by the same
    [except Exception] handler, so [not should_pass] is recorded; an
    exception not derived from [Exception], raised by [func] or by the
    comparison, propagates out of [test]. *)
Theorem test_eq_exception_caught (desc : string) (sp : bool)
    (expected : pyval) (func : pyfunc) (args : list pyval) (t : trace) :
  (forall v e, fn_body func args = Ok v -> eval_eq expected v = Exn e ->
     exc_is_Exception e = true ->
     TesterPy.test desc sp expected func args t
       = (Ok tt, t ++ [EvCall; EvTestBool desc (negb sp)])) /\
  (forall e, (fn_body func args = Exn e \/
              exists v, fn_body func args = Ok v /\
                        eval_eq expected v = Exn e) ->
     exc_is_Exception e = false ->
     fst (TesterPy.test desc sp expected func args t) = Exn e).
Proof.
  rewrite test_eq. split.
  - intros v e Hf He Hx. rewrite Hf, He, Hx. reflexivity.
  - intros e [Hf | [v [Hf He]]] Hx; rewrite Hf; [|rewrite He]; rewrite Hx;
      reflexivity.
Qed.

(** C10: when one value is an [int] and the other a [float], or one value's
    type is a strict subclass of [float], [test_value] takes the strict
    equality path and its result does not depend on the tolerance. *)
Theorem test_value_exact_type (desc : string) (v1 v2 : pyval)
    (tol tol' : option pyval) (t : trace)
    (Hmixed : (exists z q, (v1 = PInt z /\ v2 = PFloat None q) \/
                           (v1 = PFloat None q /\ v2 = PInt z)) \/
              (exists c q, v1 = PFloat (Some c) q \/ v2 = PFloat (Some c) q)) :
  TesterPy.test_value desc v1 v2 tol t
    = match eval_eq v1 v2 with
      | Ok b => (Ok tt, t ++ [EvTestBool desc b])
      | Exn e => (Exn e, t)
      end /\
  TesterPy.test_value desc v1 v2 tol t = TesterPy.test_value desc v1 v2 tol' t.
Proof.
  assert (Hf : andb (type_is_float v1) (type_is_float v2) = false).
  { destruct Hmixed as [[z [q [[-> ->]|[-> ->]]]] | [c [q [->| ->]]]];
      simpl; try reflexivity; apply andb_false_r. }
  rewrite !test_value_eq, Hf. split; reflexivity.
Qed.

Lemma test_value_exact_type_witness :
  TesterPy.test_value "d" (PInt 1) (PFloat None (100001 # 100000))
      (Some (PFloat None 1)) []
    = (Ok tt, [EvTestBool "d" false]) /\
  TesterPy.test_value "d" (PInt 1) (PFloat None (100001 # 100000))
      (Some (PFloat None 1)) []
    = TesterPy.test_value "d" (PInt 1) (PFloat None (100001 # 100000))
        None [].
Proof.
  exact (test_value_exact_type "d" (PInt 1) (PFloat None (100001 # 100000))
           (Some (PFloat None 1)) None []
           (or_introl (ex_intro _ 1%Z (ex_intro _ (100001 # 100000)
              (or_introl (conj eq_refl eq_refl)))))).
Defined.

(** * Further properties of the module *)

(** Solves goals whose hypotheses equate two traces [t ++ s1] and
    [t ++ s2] or two results. *)
Ltac trace_inv :=
  repeat match goal with
  | H : (_, _) = (_, _) |- _ => injection H; clear H; intros
  | H : ?t ++ _ = ?t ++ _ |- _ => apply app_inv_head in H
  | H : _ :: _ = _ :: _ |- _ => injection H; clear H; intros
  | H : EvTestBool _ _ = EvTestBool _ _ |- _ => injection H; clear H; intros
  end;
  subst; try discriminate.

(** [py_test_function] ends in one of three ways only: it returns 1, it
    returns 0, or the handler's [NameError] for [psr] escapes; the
    callable's own exception never reaches the caller. *)
Theorem py_test_function_outcomes (func : pyfunc) (args : list pyval)
    (t : trace) :
  fst (py_test_function func args t) = Ok (PInt 1) \/
  fst (py_test_function func args t) = Ok (PInt 0) \/
  fst (py_test_function func args t) = Exn (NameError "psr").
Proof.
  rewrite py_test_function_eq.
  destruct (fn_body func args) as [v|e]; [left; reflexivity|].
  destruct (exc_is_Exception e); right; [right|left]; reflexivity.
Qed.

(** [py_test_bool_function] returns the callable's value, returns 0, or
    lets the [NameError] for [psr] escape; the callable's own exception
    never reaches the caller. *)
Theorem py_test_bool_function_outcomes (func : pyfunc) (args : list pyval)
    (t : trace) :
  (exists v, fn_body func args = Ok v /\
             fst (py_test_bool_function func args t) = Ok v) \/
  fst (py_test_bool_function func args t) = Ok (PInt 0) \/
  fst (py_test_bool_function func args t) = Exn (NameError "psr").
Proof.
  rewrite py_test_bool_function_eq.
  destruct (fn_body func args) as [v|e]; [left; exists v; split; reflexivity|].
  destruct (exc_is_Exception e); right; [right|left]; reflexivity.
Qed.

(** Both helpers call [func] exactly once and have no other effect: they
    never record an outcome and, [psr] being unbound, never write to the
    debug sink. *)
Theorem helpers_only_call_func (func : pyfunc) (args : list pyval)
    (t : trace) :
  snd (py_test_function func args t) = t ++ [EvCall] /\
  snd (py_test_bool_function func args t) = t ++ [EvCall].
Proof.
  rewrite py_test_function_eq, py_test_bool_function_eq.
  destruct (fn_body func args) as [v|e]; [split; reflexivity|].
  destruct (exc_is_Exception e); split; reflexivity.
Qed.

(** The two helpers differ only when [func] returns normally: then
    [py_test_function] returns 1 where [py_test_bool_function] returns the
    value [func] returned, with the same effects; when [func] raises they
    behave identically. *)
Theorem py_test_function_vs_bool_function (func : pyfunc)
    (args : list pyval) (t : trace) :
  match fn_body func args with
  | Ok v =>
      fst (py_test_function func args t) = Ok (PInt 1) /\
      fst (py_test_bool_function func args t) = Ok v /\
      snd (py_test_function func args t)
        = snd (py_test_bool_function func args t)
  | Exn _ => py_test_function func args t = py_test_bool_function func args t
  end.
Proof.
  rewrite py_test_function_eq, py_test_bool_function_eq.
  destruct (fn_body func args) as [v|e]; [repeat split|].
  destruct (exc_is_Exception e); reflexivity.
Qed.

(** With [should_pass] true, [test] records [True] only when [func]
    returned a value [v] and [expected == v] evaluated to [True]: a raising
    callable or comparison is never recorded as a pass. *)
Theorem test_pass_means_equal (desc : string) (expected : pyval)
    (func : pyfunc) (args : list pyval) (t : trace)
    (Hrec : TesterPy.test desc true expected func args t
              = (Ok tt, t ++ [EvCall; EvTestBool desc true])) :
  exists v, fn_body func args = Ok v /\ eval_eq expected v = Ok true.
Proof.
  rewrite test_eq in Hrec.
  destruct (fn_body func args) as [v|e].
  - exists v. split; [reflexivity|].
    destruct (eval_eq expected v) as [[|]|e].
    + reflexivity.
    + simpl in Hrec. trace_inv.
    + destruct (exc_is_Exception e); simpl in Hrec; trace_inv.
  - destruct (exc_is_Exception e); simpl in Hrec; trace_inv.
Qed.

Lemma test_pass_means_equal_witness :
  TesterPy.test "d" true (PInt 42) (const_fn (PFloat None 42)) [] []
    = (Ok tt, [EvCall; EvTestBool "d" true]) /\
  exists v, fn_body (const_fn (PFloat None 42)) [] = Ok v /\
            eval_eq (PInt 42) v = Ok true.
Proof.
  split; [reflexivity|].
  exact (test_pass_means_equal "d" (PInt 42) (const_fn (PFloat None 42)) []
           [] eq_refl).
Defined.

(** With [should_pass] false, [test] records [True] only when [func] or the
    comparison [expected == v] raised an exception derived from
    [Exception]. *)
Theorem test_expected_failure_means_raised (desc : string)
    (expected : pyval) (func : pyfunc) (args : list pyval) (t : trace)
    (Hrec : TesterPy.test desc false expected func args t
              = (Ok tt, t ++ [EvCall; EvTestBool desc true])) :
  exists e, exc_is_Exception e = true /\
    (fn_body func args = Exn e \/
     exists v, fn_body func args = Ok v /\ eval_eq expected v = Exn e).
Proof.
  rewrite test_eq in Hrec.
  destruct (fn_body func args) as [v|e].
  - destruct (eval_eq expected v) as [b|e] eqn:He.
    + rewrite andb_false_r in Hrec. trace_inv.
    + destruct (exc_is_Exception e) eqn:Hx; [|trace_inv].
      exists e. split; [exact Hx|]. right. exists v. split; [reflexivity|exact He].
  - destruct (exc_is_Exception e) eqn:Hx; [|trace_inv].
    exists e. split; [exact Hx|]. left. reflexivity.
Qed.

Lemma test_expected_failure_means_raised_witness :
  TesterPy.test "d" false (PInt 1) div_by_zero [] []
    = (Ok tt, [EvCall; EvTestBool "d" true]) /\
  exists e, exc_is_Exception e = true /\
    (fn_body div_by_zero [] = Exn e \/
     exists v, fn_body div_by_zero [] = Ok v /\ eval_eq (PInt 1) v = Exn e).
Proof.
  split; [reflexivity|].
  exact (test_expected_failure_means_raised "d" (PInt 1) div_by_zero [] []
           eq_refl).
Defined.

(** When [func] raises an exception derived from [Exception], what [test]
    does does not depend on [expected]. *)
Theorem test_raise_ignores_expected (desc : string) (sp : bool)
    (expected expected' : pyval) (func : pyfunc) (args : list pyval)
    (e : exc) (t : trace) (Hraise : fn_body func args = Exn e)
    (Hx : exc_is_Exception e = true) :
  TesterPy.test desc sp expected func args t
    = TesterPy.test desc sp expected' func args t.
Proof. rewrite !test_eq, Hraise, Hx. reflexivity. Qed.

Lemma test_raise_ignores_expected_witness :
  fn_body div_by_zero [] = Exn ZeroDivisionError /\
  exc_is_Exception ZeroDivisionError = true /\
  TesterPy.test "d" true (PInt 1) div_by_zero [] []
    = TesterPy.test "d" true (PStr "x") div_by_zero [] [].
Proof.
  split; [reflexivity|]. split; [reflexivity|].
  exact (test_raise_ignores_expected "d" true (PInt 1) (PStr "x")
           div_by_zero [] ZeroDivisionError [] eq_refl eq_refl).
Defined.

(** [test_value] never calls a user callable: it either records exactly one
    outcome (through [test_float] or [test_bool]) or, when an operand's
    [__eq__] raises, propagates that exception having recorded nothing. *)
Theorem test_value_effect (desc : string) (v1 v2 : pyval)
    (tol : option pyval) (t : trace) :
  (exists ev, TesterPy.test_value desc v1 v2 tol t = (Ok tt, t ++ [ev]) /\
     ((exists b, ev = EvTestBool desc b) \/
      (exists tl, ev = EvTestFloat desc v1 v2 tl))) \/
  (exists e, TesterPy.test_value desc v1 v2 tol t = (Exn e, t) /\
     eval_eq v1 v2 = Exn e).
Proof.
  rewrite test_value_eq.
  destruct (andb (type_is_float v1) (type_is_float v2)).
  - left. eexists. split; [reflexivity|]. right. eexists. reflexivity.
  - destruct (eval_eq v1 v2) as [b|e].
    + left. eexists. split; [reflexivity|]. left. exists b. reflexivity.
    + right. exists e. split; reflexivity.
Qed.
